(** * Mandala Art Generator: a shallow embedding of [MandalaArt.py]

    The script is a Streamlit page.  Its local logic is the prompt
    template [generate_mandala_prompt], the generation pipeline
    [generate_mandala_image] (one OpenAI call, one HTTP fetch, one PIL
    decode, all under one [try/except]), the submit gate of [main], the
    three [st.session_state] attributes it writes, and the result panel
    that derives the download file name.

    External services (the OpenAI SDK, [requests], PIL, Streamlit's image
    display, the clock) are not code of this repository: they are the fields of a [World] record,
    so every theorem holds for every behaviour of those services.
    Observable effects ([st.error], [st.spinner], the outbound calls) are
    recorded in a trace by a small trace-and-exception monad. *)

From Stdlib Require Import String Ascii List ZArith Bool Lia.
Import ListNotations.
Open Scope string_scope.

(** ** Python strings *)

(** [str.isspace] on the code points 0..255 that a Rocq [ascii] holds:
    \t \n \v \f \r, the separators \x1c..\x1f, space, \x85 and \xa0. *)
Definition is_py_space (c : ascii) : bool :=
  let n := nat_of_ascii c in
  (((9 <=? n) && (n <=? 13)) || ((28 <=? n) && (n <=? 32))
   || (n =? 133) || (n =? 160))%nat.

Fixpoint str_rev (s : string) : string :=
  match s with
  | EmptyString => EmptyString
  | String c r => str_rev r ++ String c EmptyString
  end.

Fixpoint lstrip (s : string) : string :=
  match s with
  | EmptyString => EmptyString
  | String c r => if is_py_space c then lstrip r else s
  end.

Definition rstrip (s : string) : string := str_rev (lstrip (str_rev s)).

(** [str.strip()] with no argument. *)
Definition strip (s : string) : string := rstrip (lstrip s).

(** Python truthiness of a [str]: non-empty. *)
Definition str_truthy (s : string) : bool :=
  match s with EmptyString => false | _ => true end.

(** Every character is whitespace (true of the empty string). *)
Fixpoint all_space (s : string) : bool :=
  match s with
  | EmptyString => true
  | String c r => is_py_space c && all_space r
  end.

(** [s] occurs in [t] verbatim. *)
Definition contains (t s : string) : Prop :=
  exists pre post, t = pre ++ s ++ post.

Definition nl : string := String (ascii_of_nat 10) EmptyString.

(** ** [generate_mandala_prompt] (lines 66-81): the f-string template,
    line by line, with the source's indentation and its trailing blank. *)
Definition generate_mandala_prompt (inspiration_word : string) : string :=
  "Create a beautiful, intricate black and white mandala design inspired by the word '"
    ++ inspiration_word ++ "'. " ++ nl ++
  "    The mandala should be:" ++ nl ++
  "    - Completely black and white (no colors, no grayscale - pure black lines on white background)" ++ nl ++
  "    - Perfectly symmetrical and circular" ++ nl ++
  "    - Featuring intricate geometric patterns, sacred geometry, and detailed ornamental elements" ++ nl ++
  "    - Incorporating symbolic elements related to '" ++ inspiration_word ++ "'" ++ nl ++
  "    - High contrast with crisp, clean lines" ++ nl ++
  "    - Suitable for meditation and coloring" ++ nl ++
  "    - Professional quality with fine details" ++ nl ++
  "    - Centered on a pure white background" ++ nl ++
  "    " ++ nl ++
  "    Style: Traditional mandala art, spiritual, meditative, geometric, ornate, detailed line art".

Definition err_api_key_prefix : string := "❌ Error with API key: ".
Definition err_generating_prefix : string := "❌ Error generating image: ".

(** ** Values exchanged with the external services *)

(** A Python exception; [exn_msg] is [str(e)]. *)
Record Exn := { exn_msg : string }.

(** An opened PIL image: only its size is inspected by the script. *)
Record Image := { img_width : Z; img_height : Z; img_tag : nat }.

(** [openai.OpenAI(api_key=...)]: the client object keeps the key. *)
Record Client := { client_api_key : string }.

(** The keyword arguments of [client.images.generate] (lines 93-99). *)
Record GenRequest := {
  req_model : string; req_prompt : string; req_size : string;
  req_quality : string; req_n : Z }.

(** An entry of [response.data]; its [url] may be [None]. *)
Record ImageDatum := { datum_url : option string }.

(** A [requests.Response]: the final status, its reason phrase, the final
    url and the body. *)
Record HttpResponse := {
  status_code : Z; reason : string; url : string; content : list Byte.byte }.

(** The behaviour of everything outside the repository.  [inl] is a raised
    exception, [inr] a returned value. *)
Record World := {
  openai_ctor : string -> option Exn;
  images_generate : Client -> GenRequest -> Exn + list ImageDatum;
  requests_get : option string -> Exn + HttpResponse;
  image_open : list Byte.byte -> Exn + Image;
  png_save : Image -> Exn + list Byte.byte;
  (** [st.image] re-encodes the image for the browser (as JPEG when it has
      no alpha channel) and may raise on an image that PNG accepts. *)
  st_image : Image -> option Exn }.

(** What the script makes visible to the outside world. *)
Inductive Event :=
| Ev_error (msg : string)
| Ev_spinner (msg : string)
| Ev_generate (c : Client) (r : GenRequest)
| Ev_get (url : option string)
| Ev_success (msg : string)
| Ev_info (msg : string).

(** ** A trace-and-exception monad for the [try] blocks *)

Definition M (A : Type) : Type := list Event -> list Event * (Exn + A).

Definition ret {A} (a : A) : M A := fun tr => (tr, inr a).
Definition raise {A} (e : Exn) : M A := fun tr => (tr, inl e).
Definition bind {A B} (m : M A) (k : A -> M B) : M B :=
  fun tr => match m tr with
            | (tr', inl e) => (tr', inl e)
            | (tr', inr a) => k a tr'
            end.
Definition emit (ev : Event) : M unit := fun tr => ((tr ++ [ev])%list, inr tt).
Definition lift {A} (r : Exn + A) : M A := fun tr => (tr, r).
(** [try: body except Exception as e: handler(e)] *)
Definition try_except {A} (body : M A) (handler : Exn -> M A) : M A :=
  fun tr => match body tr with
            | (tr', inl e) => handler e tr'
            | ok => ok
            end.

Notation "x <- m ;; k" := (bind m (fun x => k))
  (at level 61, m at next level, right associativity).
Notation "m ;;; k" := (bind m (fun _ => k))
  (at level 61, right associativity).

(** Running a computation from the empty trace. *)
Definition run {A} (m : M A) : list Event * (Exn + A) := m [].

(** ** Library calls the script makes directly *)

(** [response.data[0]]: [IndexError] on an empty list. *)
Definition index0 (data : list ImageDatum) : M ImageDatum :=
  match data with
  | d :: _ => ret d
  | [] => raise {| exn_msg := "list index out of range" |}
  end.

Fixpoint dec_fuel (fuel n : nat) (acc : string) : string :=
  match fuel with
  | O => acc
  | S f =>
      let acc' := String (ascii_of_nat (48 + n mod 10)) acc in
      if (n <? 10)%nat then acc' else dec_fuel f (n / 10) acc'
  end.

(** Decimal digits of [n]. *)
Definition dec (n : nat) : string := dec_fuel (S n) n "".

(** The [http_error_msg] of [requests.Response.raise_for_status]: set for a
    status in 400..499 (client error) or 500..599 (server error). *)
Definition http_error_msg (r : HttpResponse) : option string :=
  let code := dec (Z.to_nat (status_code r)) in
  if ((400 <=? status_code r) && (status_code r <? 500))%Z then
    Some (code ++ " Client Error: " ++ reason r ++ " for url: " ++ url r)
  else if ((500 <=? status_code r) && (status_code r <? 600))%Z then
    Some (code ++ " Server Error: " ++ reason r ++ " for url: " ++ url r)
  else None.

(** [raise_for_status] raises [HTTPError(http_error_msg)], whose [str] is
    that text. *)
Definition raise_for_status (r : HttpResponse) : M unit :=
  match http_error_msg r with
  | Some m => raise {| exn_msg := m |}
  | None => ret tt
  end.

(** ** [create_openai_client] (lines 57-64) *)
Definition create_openai_client (w : World) (api_key : string) : M (option Client) :=
  try_except
    (match openai_ctor w api_key with
     | None => ret (Some {| client_api_key := api_key |})
     | Some e => raise e
     end)
    (fun e => emit (Ev_error (err_api_key_prefix ++ exn_msg e)) ;;; ret None).

(** The fixed request of lines 93-99. *)
Definition mandala_request (prompt : string) : GenRequest :=
  {| req_model := "dall-e-3"; req_prompt := prompt; req_size := "1024x1024";
     req_quality := "standard"; req_n := 1%Z |}.

Definition spinner_msg (inspiration_word : string) : string :=
  "🎨 Creating your '" ++ inspiration_word ++ "' mandala... This may take a few moments".

(** ** [generate_mandala_image] (lines 83-114).  A client object is always
    truthy, so [if not client] only catches [None]. *)
Definition generate_mandala_image (w : World) (api_key inspiration_word : string)
  : M (option Image * option string) :=
  try_except
    (client <- create_openai_client w api_key ;;
     match client with
     | None => ret (None, None)
     | Some c =>
         let prompt := generate_mandala_prompt inspiration_word in
         emit (Ev_spinner (spinner_msg inspiration_word)) ;;;
         emit (Ev_generate c (mandala_request prompt)) ;;;
         response <- lift (images_generate w c (mandala_request prompt)) ;;
         datum <- index0 response ;;
         let image_url := datum_url datum in
         emit (Ev_get image_url) ;;;
         img_response <- lift (requests_get w image_url) ;;
         raise_for_status img_response ;;;
         image <- lift (image_open w (content img_response)) ;;
         ret (Some image, Some prompt)
     end)
    (fun e => emit (Ev_error (err_generating_prefix ++ exn_msg e)) ;;; ret (None, None)).

(** The exception raised on the way through [generate_mandala_image], with
    the prefix of the handler that reports it: the client constructor
    (line 60, reported at line 63), [images.generate] (line 93),
    [response.data[0]] (line 101), [requests.get] (line 104),
    [raise_for_status] (line 105) and [Image.open] (line 108), all reported
    at line 113. *)
Inductive Raised (w : World) (k word : string) : string -> Exn -> Prop :=
| raised_ctor e :
    openai_ctor w k = Some e -> Raised w k word err_api_key_prefix e
| raised_generate e :
    openai_ctor w k = None ->
    images_generate w {| client_api_key := k |}
      (mandala_request (generate_mandala_prompt word)) = inl e ->
    Raised w k word err_generating_prefix e
| raised_index :
    openai_ctor w k = None ->
    images_generate w {| client_api_key := k |}
      (mandala_request (generate_mandala_prompt word)) = inr [] ->
    Raised w k word err_generating_prefix {| exn_msg := "list index out of range" |}
| raised_get d rest e :
    openai_ctor w k = None ->
    images_generate w {| client_api_key := k |}
      (mandala_request (generate_mandala_prompt word)) = inr (d :: rest) ->
    requests_get w (datum_url d) = inl e ->
    Raised w k word err_generating_prefix e
| raised_status d rest resp m :
    openai_ctor w k = None ->
    images_generate w {| client_api_key := k |}
      (mandala_request (generate_mandala_prompt word)) = inr (d :: rest) ->
    requests_get w (datum_url d) = inr resp ->
    http_error_msg resp = Some m ->
    Raised w k word err_generating_prefix {| exn_msg := m |}
| raised_open d rest resp e :
    openai_ctor w k = None ->
    images_generate w {| client_api_key := k |}
      (mandala_request (generate_mandala_prompt word)) = inr (d :: rest) ->
    requests_get w (datum_url d) = inr resp ->
    http_error_msg resp = None ->
    image_open w (content resp) = inl e ->
    Raised w k word err_generating_prefix e.

(** ** [st.session_state]: the three attributes the script writes.
    [None] is an attribute that [hasattr] does not find. *)
Record Session := {
  current_image : option Image;
  current_prompt : option string;
  current_word : option string }.

Definition empty_session : Session :=
  {| current_image := None; current_prompt := None; current_word := None |}.

(** [st.text_input]: the widget never hands back more than [max_chars]
    characters; the frontend cuts longer input. *)
Definition text_input_value (max_chars : option nat) (typed : string) : string :=
  match max_chars with
  | None => typed
  | Some m => substring 0 m typed
  end.

(** [can_generate = api_key.strip() and inspiration_word.strip()] (line 151),
    read as a truth value. *)
Definition can_generate (api_key inspiration_word : string) : bool :=
  str_truthy (strip api_key) && str_truthy (strip inspiration_word).

(** [disabled=not can_generate] (line 153). *)
Definition button_disabled (api_key inspiration_word : string) : bool :=
  negb (can_generate api_key inspiration_word).

(** [st.button] reports a click only when it is enabled. *)
Definition st_button (clicked disabled : bool) : bool := clicked && negb disabled.

Definition success_msg (inspiration_word : string) : string :=
  "✨ Your '" ++ inspiration_word ++ "' mandala is ready!".

(** Lines 153-163.  Returns the trace, the new session state and whether
    [st.rerun()] was reached.  The [inl] branch is dead: the [try] of
    [generate_mandala_image] catches every exception
    (see [generate_mandala_image_never_raises]). *)
Definition submit (w : World) (s : Session) (api_key inspiration_word : string)
    (clicked : bool) : list Event * Session * bool :=
  if st_button clicked (button_disabled api_key inspiration_word) then
    if can_generate api_key inspiration_word then
      match run (generate_mandala_image w api_key (strip inspiration_word)) with
      | (tr, inr (Some image, prompt)) =>
          ((tr ++ [Ev_success (success_msg inspiration_word)])%list,
           {| current_image := Some image; current_prompt := prompt;
              current_word := Some (strip inspiration_word) |},
           true)
      | (tr, inr (None, _)) => (tr, s, false)
      | (tr, inl _) => (tr, s, false)
      end
    else ([], s, false)
  else ([], s, false).

(** ** [datetime.now()] and [strftime("%Y%m%d_%H%M%S")] *)
Record DateTime := {
  dt_year : nat; dt_month : nat; dt_day : nat;
  dt_hour : nat; dt_minute : nat; dt_second : nat; dt_microsecond : nat }.

(** Zero-padded to two digits, as [%m %d %H %M %S] format. *)
Definition pad2 (n : nat) : string := if (n <? 10)%nat then "0" ++ dec n else dec n.

(** [%Y] is the year's decimal digits (glibc does not pad). *)
Definition strftime_stamp (t : DateTime) : string :=
  dec (dt_year t) ++ pad2 (dt_month t) ++ pad2 (dt_day t) ++ "_"
  ++ pad2 (dt_hour t) ++ pad2 (dt_minute t) ++ pad2 (dt_second t).

(** ** The result panel, lines 194-228: [current_word] is read (line 196),
    the image is displayed (line 199), then the name is stamped and the PNG
    saved for the link (lines 206-210). *)
Inductive Panel :=
| Panel_placeholder
| Panel_result (image : Image) (caption : string) (filename : string)
    (download : list Byte.byte) (prompt_shown : option string)
| Panel_crash (e : Exn).

(** [get_image_download_link] (lines 116-122): the PNG bytes of
    [image.save(format="PNG")] go into the data URL; a failing save raises. *)
Definition get_image_download_link (w : World) (image : Image) : Exn + list Byte.byte :=
  png_save w image.

Definition render (w : World) (s : Session) (now : DateTime) : Panel :=
  match current_image s with
  | None => Panel_placeholder
  | Some image =>
      match current_word s with
      | None => Panel_crash {| exn_msg := "st.session_state has no attribute current_word" |}
      | Some word =>
          match st_image w image with
          | Some e => Panel_crash e
          | None =>
              let timestamp := strftime_stamp now in
              let filename := "mandala_" ++ word ++ "_" ++ timestamp ++ ".png" in
              match get_image_download_link w image with
              | inl e => Panel_crash e
              | inr bytes =>
                  Panel_result image ("Mandala inspired by: " ++ word) filename bytes
                    (current_prompt s)
              end
          end
      end
  end.

Definition filename_of (p : Panel) : option string :=
  match p with Panel_result _ _ f _ _ => Some f | _ => None end.

Definition image_of (p : Panel) : option Image :=
  match p with Panel_result i _ _ _ _ => Some i | _ => None end.

(** ** One run of [main()] *)
Inductive RunOutcome := Rerun | Rendered (p : Panel).

Definition info_missing : string :=
  "👆 Please enter both your API key and inspiration word to generate a mandala".

Definition main_run (w : World) (s : Session) (typed_key typed_word : string)
    (clicked : bool) (now : DateTime) : list Event * Session * RunOutcome :=
  let api_key := text_input_value None typed_key in
  let inspiration_word := text_input_value (Some 50) typed_word in
  match submit w s api_key inspiration_word clicked with
  | (tr, s', true) => (tr, s', Rerun)
  | (tr, s', false) =>
      let tr' := if can_generate api_key inspiration_word then tr
                 else (tr ++ [Ev_info info_missing])%list in
      (tr', s', Rendered (render w s' now))
  end.

(** ** Concrete services used by the examples *)
Module Worlds.

Definition img0 : Image := {| img_width := 1024; img_height := 1024; img_tag := 0 |}.
Definition png_bytes : list Byte.byte := [Byte.x89; Byte.x50; Byte.x4e; Byte.x47].
Definition asset_url : string := "https://images.example/mandala.png".
Definition t0 : DateTime := {| dt_year := 2026; dt_month := 10; dt_day := 14;
  dt_hour := 9; dt_minute := 5; dt_second := 7; dt_microsecond := 250 |}.
Definition t1 : DateTime := {| dt_year := 2026; dt_month := 10; dt_day := 14;
  dt_hour := 9; dt_minute := 6; dt_second := 40; dt_microsecond := 0 |}.

(** Every service answers as in the happy path. *)
Definition world_ok : World := {|
  openai_ctor := fun _ => None;
  images_generate := fun _ _ => inr [{| datum_url := Some asset_url |}];
  requests_get := fun _ =>
    inr {| status_code := 200; reason := "OK"; url := asset_url; content := png_bytes |};
  image_open := fun _ => inr img0;
  png_save := fun _ => inr png_bytes;
  st_image := fun _ => None |}.

Definition with_generate (w : World) g : World := {|
  openai_ctor := openai_ctor w; images_generate := g; requests_get := requests_get w;
  image_open := image_open w; png_save := png_save w; st_image := st_image w |}.
Definition with_get (w : World) g : World := {|
  openai_ctor := openai_ctor w; images_generate := images_generate w; requests_get := g;
  image_open := image_open w; png_save := png_save w; st_image := st_image w |}.
Definition with_open (w : World) o : World := {|
  openai_ctor := openai_ctor w; images_generate := images_generate w;
  requests_get := requests_get w; image_open := o; png_save := png_save w;
  st_image := st_image w |}.

(** The provider rejects the key, echoing it as OpenAI does for short keys. *)
Definition world_auth_fail : World :=
  with_generate world_ok (fun c _ => inl {| exn_msg :=
    "Error code: 401 - Incorrect API key provided: " ++ client_api_key c ++ "." |}).
(** The provider refuses the prompt. *)
Definition world_gen_fail : World :=
  with_generate world_ok (fun _ _ => inl {| exn_msg :=
    "Error code: 400 - Your request was rejected by the safety system." |}).
(** The asset server answers 500. *)
Definition world_fetch500 : World :=
  with_get world_ok (fun _ => inr {| status_code := 500; reason := "Internal Server Error";
                                     url := asset_url; content := [] |}).
(** The asset server answers 300 with the image bytes. *)
Definition world_status300 : World :=
  with_get world_ok (fun _ => inr {| status_code := 300; reason := "Multiple Choices";
                                     url := asset_url; content := png_bytes |}).
(** The bytes are not an image. *)
Definition world_undecodable : World :=
  with_open world_ok (fun _ => inl {| exn_msg := "cannot identify image file" |}).

Definition s_prev : Session :=
  {| current_image := Some img0;
     current_prompt := Some (generate_mandala_prompt "peace");
     current_word := Some "peace" |}.

End Worlds.
Import Worlds.

Example strip_ex : strip "  peace 	" = "peace".
Proof. reflexivity. Qed.

Example happy_path_ex :
  snd (fst (submit world_ok empty_session "valid-token" " peace " true)) = s_prev.
Proof. reflexivity. Qed.

Example blank_key_ex :
  main_run world_ok empty_session "" "peace" true t0
  = ([Ev_info info_missing], empty_session, Rendered Panel_placeholder).
Proof. reflexivity. Qed.

Example stamp_ex : strftime_stamp t0 = "20261014_090507".
Proof. reflexivity. Qed.

Example fetch500_ex :
  snd (run (generate_mandala_image world_fetch500 "valid-token" "peace")) = inr (None, None).
Proof. reflexivity. Qed.

(** ** Several runs of [main] in one browser session *)

(** What one script run sees: the services, the two typed fields, whether
    the button was clicked, and the clock. *)
Record RunInput := {
  ri_world : World; ri_key : string; ri_word : string;
  ri_clicked : bool; ri_now : DateTime }.

(** The session state after a sequence of runs, starting from [s]. *)
Fixpoint session_after (s : Session) (runs : list RunInput) : Session :=
  match runs with
  | [] => s
  | r :: rest =>
      let '(_, s', _) := main_run (ri_world r) s (ri_key r) (ri_word r)
                           (ri_clicked r) (ri_now r) in
      session_after s' rest
  end.

(** The shape the script keeps [st.session_state] in: nothing stored, or an
    image with the prompt built from a stored word that is stripped,
    non-empty and at most 50 characters long. *)
Definition session_ok (s : Session) : Prop :=
  s = empty_session \/
  exists image word,
    s = {| current_image := Some image;
           current_prompt := Some (generate_mandala_prompt word);
           current_word := Some word |} /\
    strip word = word /\ word <> "" /\ String.length word <= 50.

(** ** The HTML of [get_image_download_link] (lines 116-122) *)

(** The standard base64 alphabet of [base64.b64encode]. *)
Definition b64_char (v : Z) : ascii :=
  if (v <? 26)%Z then ascii_of_nat (Z.to_nat (65 + v))
  else if (v <? 52)%Z then ascii_of_nat (Z.to_nat (97 + (v - 26)))
  else if (v <? 62)%Z then ascii_of_nat (Z.to_nat (48 + (v - 52)))
  else if (v =? 62)%Z then "+"%char else "/"%char.

Definition byte_val (b : Byte.byte) : Z := Z.of_N (Byte.to_N b).

(** [base64.b64encode]: each 3 bytes become 4 characters of 6 bits each;
    a final group of 2 or 1 bytes is padded with one or two [=]. *)
Fixpoint b64encode (bs : list Byte.byte) : string :=
  match bs with
  | b1 :: b2 :: b3 :: rest =>
      let n := (byte_val b1 * 65536 + byte_val b2 * 256 + byte_val b3)%Z in
      String (b64_char (n / 262144)) (String (b64_char (n / 4096 mod 64))
        (String (b64_char (n / 64 mod 64)) (String (b64_char (n mod 64))
          (b64encode rest))))
  | [b1; b2] =>
      let n := (byte_val b1 * 65536 + byte_val b2 * 256)%Z in
      String (b64_char (n / 262144)) (String (b64_char (n / 4096 mod 64))
        (String (b64_char (n / 64 mod 64)) "="))
  | [b1] =>
      let n := (byte_val b1 * 65536)%Z in
      String (b64_char (n / 262144)) (String (b64_char (n / 4096 mod 64)) "==")
  | [] => ""
  end.

(** The value of a base64 character. *)
Definition b64_val (c : ascii) : option Z :=
  let n := Z.of_nat (nat_of_ascii c) in
  if ((65 <=? n) && (n <=? 90))%Z then Some (n - 65)%Z
  else if ((97 <=? n) && (n <=? 122))%Z then Some (n - 71)%Z
  else if ((48 <=? n) && (n <=? 57))%Z then Some (n + 4)%Z
  else if (n =? 43)%Z then Some 62%Z
  else if (n =? 47)%Z then Some 63%Z
  else None.

(** Decoding of base64 text, as a browser does for a [data:] URL, giving
    the byte values. *)
Fixpoint b64decode (s : string) : option (list Z) :=
  match s with
  | EmptyString => Some []
  | String c1 (String c2 (String c3 (String c4 rest))) =>
      match b64_val c1, b64_val c2 with
      | Some v1, Some v2 =>
          if Ascii.eqb c4 "=" && negb (str_truthy rest) then
            if Ascii.eqb c3 "=" then Some [((v1 * 262144 + v2 * 4096) / 65536)%Z]
            else match b64_val c3 with
                 | Some v3 =>
                     let m := (v1 * 262144 + v2 * 4096 + v3 * 64)%Z in
                     Some [(m / 65536)%Z; (m / 256 mod 256)%Z]
                 | None => None
                 end
          else match b64_val c3, b64_val c4, b64decode rest with
               | Some v3, Some v4, Some tl =>
                   let m := (v1 * 262144 + v2 * 4096 + v3 * 64 + v4)%Z in
                   Some ((m / 65536)%Z :: (m / 256 mod 256)%Z :: (m mod 256)%Z :: tl)
               | _, _, _ => None
               end
      | _, _ => None
      end
  | _ => None
  end.

Definition dq_char : ascii := ascii_of_nat 34.
Definition dq : string := String dq_char EmptyString.

Definition data_url_head : string := "<a href=" ++ dq ++ "data:image/png;base64,".

(** The f-string of line 122 with [img_str] and [filename] filled in. *)
Definition link_html (img_str filename : string) : string :=
  data_url_head ++ img_str ++ dq ++ " download=" ++ dq ++ filename ++ dq ++
  " style=" ++ dq ++ "text-decoration: none;" ++ dq ++ "><button style=" ++ dq ++
  "background: linear-gradient(45deg, #28a745, #20c997); color: white; border: none; padding: 0.75rem 2rem; font-size: 1.1rem; border-radius: 25px; cursor: pointer; transition: all 0.3s ease;"
  ++ dq ++ ">📥 Download Mandala</button></a>".

(** [get_image_download_link(image, filename)]: the PNG bytes of
    [image.save], base64-encoded ([.decode()] keeps the ASCII text). *)
Definition download_link_html (w : World) (image : Image) (filename : string)
  : Exn + string :=
  match get_image_download_link w image with
  | inl e => inl e
  | inr bytes => inr (link_html (b64encode bytes) filename)
  end.

Fixpoint take_until_dq (s : string) : string :=
  match s with
  | EmptyString => EmptyString
  | String c r => if Ascii.eqb c dq_char then EmptyString else String c (take_until_dq r)
  end.

(** The payload of the [href] data URL, read up to its closing quote. *)
Definition href_payload (html : string) : option string :=
  if String.prefix data_url_head html
  then Some (take_until_dq (substring (String.length data_url_head)
                                      (String.length html) html))
  else None.

(** ** Clock readings *)

(** A [datetime] as Python builds it, with a four-digit year
    ([1000 <= year] and [year / 1000 < 10]). *)
Definition valid_datetime (t : DateTime) : Prop :=
  1000 <= dt_year t /\ dt_year t / 1000 < 10 /\
  1 <= dt_month t <= 12 /\ 1 <= dt_day t <= 31 /\
  dt_hour t < 24 /\ dt_minute t < 60 /\ dt_second t < 60.

(** Two clock readings in the same second. *)
Definition same_second (t t' : DateTime) : Prop :=
  dt_year t = dt_year t' /\ dt_month t = dt_month t' /\ dt_day t = dt_day t' /\
  dt_hour t = dt_hour t' /\ dt_minute t = dt_minute t' /\ dt_second t = dt_second t'.

(** * Proofs *)

Ltac unfold_pipeline :=
  unfold run, generate_mandala_image, create_openai_client, try_except, bind,
    ret, raise, emit, lift, index0, raise_for_status, http_error_msg in *.

(** Case split on every service answer the pipeline inspects. *)
Ltac crunch :=
  repeat (simpl in *;
    match goal with
    | |- context [openai_ctor ?w ?k] => destruct (openai_ctor w k) eqn:?
    | |- context [images_generate ?w ?c ?r] =>
        destruct (images_generate w c r) as [?|[|? ?]] eqn:?
    | |- context [requests_get ?w ?u] => destruct (requests_get w u) eqn:?
    | |- context [image_open ?w ?b] => destruct (image_open w b) eqn:?
    | |- context [if ?b then _ else _] => destruct b eqn:?
    end).

Lemma generate_mandala_image_never_raises (w : World) (k word : string) :
  exists r, snd (run (generate_mandala_image w k word)) = inr r.
Proof. unfold_pipeline; crunch; eexists; reflexivity. Qed.

(** The two shapes of the pipeline's value. *)
Lemma generate_result_shape (w : World) (k word : string) :
  snd (run (generate_mandala_image w k word)) = inr (None, None) \/
  exists image, snd (run (generate_mandala_image w k word))
                = inr (Some image, Some (generate_mandala_prompt word)).
Proof.
  unfold_pipeline; crunch; first [left; reflexivity | right; eexists; reflexivity].
Qed.

(** ** Strings *)

Lemma str_app_nil_r (s : string) : s ++ "" = s.
Proof. induction s as [|c s IH]; simpl; [reflexivity|]. rewrite IH. reflexivity. Qed.

Lemma str_app_assoc (a b c : string) : a ++ b ++ c = (a ++ b) ++ c.
Proof. induction a as [|x a IH]; simpl; [reflexivity|]. rewrite IH. reflexivity. Qed.

Lemma str_length_app (a b : string) : String.length (a ++ b) = String.length a + String.length b.
Proof. induction a as [|x a IH]; simpl; [reflexivity|]. rewrite IH. reflexivity. Qed.

Lemma str_rev_app (a b : string) : str_rev (a ++ b) = str_rev b ++ str_rev a.
Proof.
  induction a as [|c a IH]; simpl.
  - rewrite str_app_nil_r. reflexivity.
  - rewrite IH, str_app_assoc. reflexivity.
Qed.

Lemma all_space_app (a b : string) : all_space (a ++ b) = all_space a && all_space b.
Proof. induction a as [|c a IH]; simpl; [reflexivity|]. rewrite IH, andb_assoc. reflexivity. Qed.

Lemma all_space_rev (s : string) : all_space (str_rev s) = all_space s.
Proof.
  induction s as [|c s IH]; simpl; [reflexivity|].
  rewrite all_space_app, IH. simpl. rewrite andb_true_r, andb_comm. reflexivity.
Qed.

Lemma lstrip_all_space (s : string) : lstrip s = "" <-> all_space s = true.
Proof.
  induction s as [|c s IH]; simpl; [tauto|].
  destruct (is_py_space c); simpl; [exact IH|].
  split; discriminate.
Qed.

Lemma lstrip_idem (s : string) : lstrip (lstrip s) = lstrip s.
Proof.
  induction s as [|c s IH]; simpl; [reflexivity|].
  destruct (is_py_space c) eqn:E; [exact IH|]. simpl. rewrite E. reflexivity.
Qed.

Lemma str_rev_empty (s : string) : str_rev s = "" -> s = "".
Proof.
  destruct s as [|c s]; simpl; [auto|].
  intro H. apply (f_equal String.length) in H.
  rewrite str_length_app in H. simpl in H. lia.
Qed.

(** [strip] empties exactly the whitespace-only strings. *)
Lemma strip_empty_iff (s : string) : strip s = "" <-> all_space s = true.
Proof.
  unfold strip, rstrip. split.
  - intro H. apply str_rev_empty, lstrip_all_space in H.
    rewrite all_space_rev in H. apply lstrip_all_space in H.
    rewrite lstrip_idem in H. apply lstrip_all_space. exact H.
  - intro H. apply lstrip_all_space in H. rewrite H. reflexivity.
Qed.

Lemma str_truthy_strip (s : string) : str_truthy (strip s) = negb (all_space s).
Proof.
  destruct (all_space s) eqn:E.
  - apply strip_empty_iff in E. rewrite E. reflexivity.
  - destruct (strip s) eqn:F; [|reflexivity].
    apply strip_empty_iff in F. congruence.
Qed.

Lemma substring_length (m : nat) (s : string) : String.length (substring 0 m s) <= m.
Proof.
  revert s. induction m as [|m IH]; intros [|c s]; simpl; try lia.
  specialize (IH s). lia.
Qed.

Lemma contains_refl (s : string) : contains s s.
Proof. exists "", "". simpl. rewrite str_app_nil_r. reflexivity. Qed.

Lemma contains_app_l (t u s : string) : contains t s -> contains (t ++ u) s.
Proof.
  intros (pre & post & ->). exists pre, (post ++ u).
  rewrite !str_app_assoc. reflexivity.
Qed.

Lemma contains_app_r (t u s : string) : contains t s -> contains (u ++ t) s.
Proof.
  intros (pre & post & ->). exists (u ++ pre), post.
  rewrite !str_app_assoc. reflexivity.
Qed.

(** ** Claim theorems *)

(** C10: [generate_mandala_image] never returns half a result: it returns
    [(None, None)], or a decoded image together with the prompt built from
    the inspiration word it was given. *)
Theorem generate_mandala_image_all_or_nothing (w : World) (k word : string) :
  snd (run (generate_mandala_image w k word)) = inr (None, None) \/
  exists image, snd (run (generate_mandala_image w k word))
                = inr (Some image, Some (generate_mandala_prompt word)).
Proof.
  unfold_pipeline; crunch; first [left; reflexivity | right; eexists; reflexivity].
Qed.

(** C3: the prompt template contains the topic verbatim and the fixed style
    markers: "symmetrical", "black and white" and "sacred geometry".  Being a
    Rocq function of its argument it is deterministic, total and pure. *)
Theorem generate_mandala_prompt_contents (T : string) :
  contains (generate_mandala_prompt T) T /\
  contains (generate_mandala_prompt T) "symmetrical" /\
  contains (generate_mandala_prompt T) "black and white" /\
  contains (generate_mandala_prompt T) "sacred geometry".
Proof.
  unfold generate_mandala_prompt. repeat split.
  - apply contains_app_r, contains_app_l, contains_refl.
  - do 8 apply contains_app_r. apply contains_app_l.
    exists "    - Perfectly ", " and circular". reflexivity.
  - apply contains_app_l.
    exists "Create a beautiful, intricate ",
      " mandala design inspired by the word '". reflexivity.
  - do 10 apply contains_app_r. apply contains_app_l.
    exists "    - Featuring intricate geometric patterns, ",
      ", and detailed ornamental elements". reflexivity.
Qed.

(** An event that leaves the process: the generation request or the fetch. *)
Definition is_network (ev : Event) : bool :=
  match ev with Ev_generate _ _ | Ev_get _ => true | _ => false end.

(** C4: with the values the two fields hand back, the Generate button is
    disabled exactly when the key is empty or whitespace-only, or the word is
    empty or whitespace-only, or the word is longer than 50 characters (which
    the [max_chars=50] widget never delivers); a run of [main] with the
    button disabled makes no network call and leaves the session as it was. *)
Theorem submit_gate (typed_key typed_word : string) :
  let api_key := text_input_value None typed_key in
  let inspiration_word := text_input_value (Some 50) typed_word in
  (button_disabled api_key inspiration_word = true <->
     all_space api_key = true \/ all_space inspiration_word = true
     \/ 50 < String.length inspiration_word) /\
  (button_disabled api_key inspiration_word = true ->
     forall w s clicked now,
       let '(tr, s', _) := main_run w s typed_key typed_word clicked now in
       forallb (fun ev => negb (is_network ev)) tr = true /\ s' = s).
Proof.
  intros api_key inspiration_word. split.
  - pose proof (substring_length 50 typed_word) as Hlen.
    unfold button_disabled, can_generate. rewrite !str_truthy_strip.
    subst api_key inspiration_word. simpl text_input_value in *.
    destruct (all_space typed_key), (all_space (substring 0 50 typed_word));
      simpl; intuition (try discriminate; try lia).
  - intros Hd w s clicked now. unfold main_run.
    fold api_key inspiration_word.
    unfold submit, st_button. rewrite Hd. rewrite andb_false_r.
    unfold button_disabled in Hd. apply negb_true_iff in Hd. rewrite Hd.
    split; reflexivity.
Qed.

(** C1: when a submit with a non-blank key and a non-blank word reaches the
    pipeline and the pipeline returns an image, the session afterwards holds
    that image, the prompt built from the stripped word, and the stripped
    word, all three replaced together, and [st.rerun()] is reached. *)
Theorem submit_success_stores_result (w : World) (s : Session)
    (k word : string) (image : Image) (p : option string) :
  can_generate k word = true ->
  snd (run (generate_mandala_image w k (strip word))) = inr (Some image, p) ->
  let '(_, s', rerun) := submit w s k word true in
  s' = {| current_image := Some image;
          current_prompt := Some (generate_mandala_prompt (strip word));
          current_word := Some (strip word) |} /\ rerun = true.
Proof.
  intros Hcan Hok.
  destruct (generate_result_shape w k (strip word)) as [H | [image' H]];
    rewrite Hok in H; [discriminate|].
  injection H as -> ->.
  unfold submit, st_button, button_disabled. rewrite Hcan. simpl.
  destruct (run (generate_mandala_image w k (strip word))) as [tr r] eqn:E.
  simpl in Hok. subst r. split; reflexivity.
Qed.

Lemma submit_success_stores_result_witness :
  can_generate "valid-token" "peace" = true /\
  snd (run (generate_mandala_image world_ok "valid-token" (strip "peace")))
    = inr (Some img0, Some (generate_mandala_prompt "peace")) /\
  (let '(_, s', rerun) := submit world_ok empty_session "valid-token" "peace" true in
   s' = {| current_image := Some img0;
           current_prompt := Some (generate_mandala_prompt (strip "peace"));
           current_word := Some (strip "peace") |} /\ rerun = true).
Proof.
  split; [reflexivity|]. split; [reflexivity|].
  apply (submit_success_stores_result world_ok empty_session "valid-token" "peace" img0
           (Some (generate_mandala_prompt "peace"))); reflexivity.
Defined.

Definition outcome_image (o : RunOutcome) : option Image :=
  match o with Rendered p => image_of p | Rerun => None end.

(** C2, counterexample: a fetch answering 500 leaves the session as it was,
    but the same run still renders the image already held from an earlier
    generation. *)
Lemma failed_submit_renders_prior_image :
  snd (run (generate_mandala_image world_fetch500 "valid-token" (strip "love")))
    = inr (None, None) /\
  (let '(_, s', o) := main_run world_fetch500 s_prev "valid-token" "love" true t0 in
   s' = s_prev /\ outcome_image o = Some img0).
Proof. split; [reflexivity|]. vm_compute. split; reflexivity. Qed.

(** C2, amended: when the pipeline fails, the run of [main] leaves the
    session unchanged and renders exactly the panel of the prior session:
    no new image, only the one already held (if any). *)
Theorem failed_submit_keeps_session (w : World) (s : Session)
    (typed_key typed_word : string) (clicked : bool) (now : DateTime) :
  snd (run (generate_mandala_image w typed_key
              (strip (text_input_value (Some 50) typed_word)))) = inr (None, None) ->
  let '(_, s', o) := main_run w s typed_key typed_word clicked now in
  s' = s /\ o = Rendered (render w s now).
Proof.
  intro Hfail. unfold main_run, submit, st_button, button_disabled.
  simpl text_input_value in *.
  destruct (can_generate typed_key (substring 0 50 typed_word)); simpl;
    [|destruct clicked; split; reflexivity].
  destruct clicked; [|split; reflexivity].
  destruct (run (generate_mandala_image w typed_key (strip (substring 0 50 typed_word))))
    as [tr r] eqn:E.
  simpl in Hfail. subst r. split; reflexivity.
Qed.

Lemma failed_submit_keeps_session_witness :
  snd (run (generate_mandala_image world_fetch500 "valid-token"
              (strip (text_input_value (Some 50) "love")))) = inr (None, None) /\
  (let '(_, s', o) := main_run world_fetch500 s_prev "valid-token" "love" true t0 in
   s' = s_prev /\ o = Rendered (render world_fetch500 s_prev t0)).
Proof.
  split; [reflexivity|].
  apply (failed_submit_keeps_session world_fetch500 s_prev "valid-token" "love" true t0).
  reflexivity.
Defined.

(** C5, counterexample: the same session rendered at two clock readings
    offers two different download names, so no function of the session
    alone yields the name. *)
Lemma download_name_depends_on_clock :
  filename_of (render world_ok s_prev t0) <> filename_of (render world_ok s_prev t1) /\
  ~ (exists f : Session -> string,
       forall t, filename_of (render world_ok s_prev t) = Some (f s_prev)).
Proof.
  assert (Hne : filename_of (render world_ok s_prev t0)
                <> filename_of (render world_ok s_prev t1)) by (vm_compute; discriminate).
  split; [exact Hne|].
  intros [f Hf]. apply Hne. rewrite (Hf t0), (Hf t1). reflexivity.
Qed.

(** C5, amended: a session holding an image and a word, whose image
    [st.image] displays and [image.save] writes as PNG, renders the download
    name [mandala_{word}_{stamp}.png], where [stamp] is the clock at that
    render formatted [%Y%m%d_%H%M%S] (microseconds dropped); the image and
    the word come from the session, the stamp does not. *)
Theorem render_download_name (w : World) (s : Session) (now : DateTime)
    (image : Image) (word : string) (bytes : list Byte.byte) :
  current_image s = Some image -> current_word s = Some word ->
  st_image w image = None -> png_save w image = inr bytes ->
  render w s now =
    Panel_result image ("Mandala inspired by: " ++ word)
      ("mandala_" ++ word ++ "_" ++ strftime_stamp now ++ ".png") bytes
      (current_prompt s).
Proof.
  intros Hi Hw Hd Hs. unfold render, get_image_download_link. rewrite Hi, Hw, Hd, Hs.
  reflexivity.
Qed.

Lemma render_download_name_witness :
  current_image s_prev = Some img0 /\ current_word s_prev = Some "peace" /\
  st_image world_ok img0 = None /\ png_save world_ok img0 = inr png_bytes /\
  render world_ok s_prev t0 =
    Panel_result img0 ("Mandala inspired by: " ++ "peace")
      ("mandala_" ++ "peace" ++ "_" ++ strftime_stamp t0 ++ ".png") png_bytes
      (current_prompt s_prev).
Proof.
  split; [reflexivity|]. split; [reflexivity|]. split; [reflexivity|].
  split; [reflexivity|]. apply render_download_name; reflexivity.
Defined.

(** The messages of the [st.error] calls in a trace. *)
Definition errors_of (tr : list Event) : list string :=
  flat_map (fun ev => match ev with Ev_error m => [m] | _ => [] end) tr.

(** C6, counterexample: a rejected key, a refused prompt, a 500 from the
    asset server and undecodable bytes all hand [main] the same value. *)
Lemma failure_kinds_same_result :
  snd (run (generate_mandala_image world_auth_fail "valid-token" "peace")) = inr (None, None) /\
  snd (run (generate_mandala_image world_gen_fail "valid-token" "peace")) = inr (None, None) /\
  snd (run (generate_mandala_image world_fetch500 "valid-token" "peace")) = inr (None, None) /\
  snd (run (generate_mandala_image world_undecodable "valid-token" "peace")) = inr (None, None).
Proof. repeat split. Qed.

Ltac status_cases r :=
  unfold http_error_msg;
  destruct (Z.leb_spec 400 (status_code r)), (Z.ltb_spec (status_code r) 500),
    (Z.leb_spec 500 (status_code r)), (Z.ltb_spec (status_code r) 600); simpl.

Lemma http_error_msg_some (r : HttpResponse) :
  (400 <= status_code r < 600)%Z -> exists m, http_error_msg r = Some m.
Proof. intro H. status_cases r; first [eexists; reflexivity | lia]. Qed.

Lemma http_error_msg_none (r : HttpResponse) :
  ~ (400 <= status_code r < 600)%Z -> http_error_msg r = None.
Proof. intro H. status_cases r; first [reflexivity | lia]. Qed.

Lemma in_errors_of (m : string) (tr : list Event) :
  In (Ev_error m) tr <-> In m (errors_of tr).
Proof.
  induction tr as [|ev tr IH]; simpl; [tauto|].
  destruct ev; simpl; rewrite IH; intuition congruence.
Qed.

(** Each raised exception is reported by its handler, alone, and the
    pipeline hands back [(None, None)]. *)
Lemma raised_reported (w : World) (k word prefix : string) (e : Exn) :
  Raised w k word prefix e ->
  snd (run (generate_mandala_image w k word)) = inr (None, None) /\
  errors_of (fst (run (generate_mandala_image w k word))) = [prefix ++ exn_msg e].
Proof.
  unfold run, generate_mandala_image, create_openai_client, try_except, bind,
    ret, raise, emit, lift, index0, raise_for_status.
  intros [e' Hc | e' Hc Hg | Hc Hg | d rest e' Hc Hg Hr | d rest resp m Hc Hg Hr Hh
         | d rest resp e' Hc Hg Hr Hh Ho];
    rewrite Hc; simpl; try rewrite Hg; simpl; try rewrite Hr; simpl;
    try rewrite Hh; simpl; try rewrite Ho; split; reflexivity.
Qed.

(** A pipeline that hands back [(None, None)] has raised one of them. *)
Lemma failure_raised (w : World) (k word : string) :
  snd (run (generate_mandala_image w k word)) = inr (None, None) ->
  exists prefix e, Raised w k word prefix e.
Proof.
  unfold run, generate_mandala_image, create_openai_client, try_except, bind,
    ret, raise, emit, lift, index0, raise_for_status.
  destruct (openai_ctor w k) as [e|] eqn:Hc; [intros _; eexists _, _; apply raised_ctor; exact Hc|].
  simpl.
  destruct (images_generate w {| client_api_key := k |}
              (mandala_request (generate_mandala_prompt word))) as [e|[|d rest]] eqn:Hg;
    simpl.
  - intros _. eexists _, _. eapply raised_generate; eassumption.
  - intros _. eexists _, _. eapply raised_index; eassumption.
  - destruct (requests_get w (datum_url d)) as [e|resp] eqn:Hr; simpl.
    + intros _. eexists _, _. eapply raised_get; eassumption.
    + destruct (http_error_msg resp) as [m|] eqn:Hh; simpl.
      * intros _. eexists _, _. eapply raised_status; eassumption.
      * destruct (image_open w (content resp)) as [e|image] eqn:Ho; simpl;
          [|discriminate].
        intros _. eexists _, _. eapply raised_open; eassumption.
Qed.

Lemma success_no_errors (w : World) (k word : string) (image : Image) (p : option string) :
  snd (run (generate_mandala_image w k word)) = inr (Some image, p) ->
  errors_of (fst (run (generate_mandala_image w k word))) = [].
Proof. unfold_pipeline; crunch; intro H; try discriminate H; reflexivity. Qed.

(** C6, amended: every failure returns [(None, None)], whatever its kind, and
    is reported by exactly one [st.error] message: the prefix of the handler
    ("Error with API key: " for the client constructor, "Error generating
    image: " for everything after it) followed by [str(e)] of the exception
    raised there.  A pipeline that hands back [(None, None)] has raised such
    an exception, and a successful one shows no error. *)
Theorem failure_reported_by_one_message (w : World) (k word : string) :
  (forall prefix e, Raised w k word prefix e ->
     snd (run (generate_mandala_image w k word)) = inr (None, None) /\
     errors_of (fst (run (generate_mandala_image w k word))) = [prefix ++ exn_msg e]) /\
  (snd (run (generate_mandala_image w k word)) = inr (None, None) ->
     exists prefix e, Raised w k word prefix e) /\
  (forall image p, snd (run (generate_mandala_image w k word)) = inr (Some image, p) ->
     errors_of (fst (run (generate_mandala_image w k word))) = []).
Proof.
  split; [|split].
  - intros prefix e. apply raised_reported.
  - apply failure_raised.
  - intros image p. apply success_no_errors.
Qed.

Lemma failure_reported_by_one_message_witness :
  Raised world_undecodable "valid-token" "peace" err_generating_prefix
    {| exn_msg := "cannot identify image file" |} /\
  errors_of (fst (run (generate_mandala_image world_undecodable "valid-token" "peace")))
    = [err_generating_prefix ++ "cannot identify image file"].
Proof.
  assert (R : Raised world_undecodable "valid-token" "peace" err_generating_prefix
                {| exn_msg := "cannot identify image file" |}).
  { apply (raised_open _ _ _ {| datum_url := Some asset_url |} []
             {| status_code := 200; reason := "OK"; url := asset_url;
                content := png_bytes |}); reflexivity. }
  split; [exact R|].
  exact (proj2 (proj1 (failure_reported_by_one_message world_undecodable "valid-token" "peace")
                  _ _ R)).
Defined.

(** The outbound calls of a trace, in order. *)
Definition network_calls (tr : list Event) : list Event := filter is_network tr.

(** C7, counterexample: a final status of 300 is not 2xx, yet the bytes go on
    to decoding and the pipeline succeeds. *)
Lemma status300_not_a_fetch_failure :
  requests_get world_status300 (Some asset_url)
    = inr {| status_code := 300; reason := "Multiple Choices";
             url := asset_url; content := png_bytes |} /\
  snd (run (generate_mandala_image world_status300 "valid-token" "peace"))
    = inr (Some img0, Some (generate_mandala_prompt "peace")).
Proof. split; reflexivity. Qed.

(** C7, amended: once the client is built, the pipeline makes exactly one
    [images.generate] call with the fixed request (dall-e-3, the prompt,
    1024x1024, standard, n=1) and, when it answers a non-empty list, exactly
    one [requests.get] of the first entry's url (none otherwise); a fetch
    status in 400..599 makes the invocation fail, and with any other status
    the body goes on to [Image.open], whose answer alone decides the
    result. *)
Theorem pipeline_network_calls (w : World) (k word : string) :
  openai_ctor w k = None ->
  let c := {| client_api_key := k |} in
  let req := mandala_request (generate_mandala_prompt word) in
  network_calls (fst (run (generate_mandala_image w k word))) =
    Ev_generate c req ::
      match images_generate w c req with
      | inr (d :: _) => [Ev_get (datum_url d)]
      | _ => []
      end /\
  (forall d rest resp,
     images_generate w c req = inr (d :: rest) ->
     requests_get w (datum_url d) = inr resp ->
     (400 <= status_code resp < 600)%Z ->
     snd (run (generate_mandala_image w k word)) = inr (None, None)) /\
  (forall d rest resp,
     images_generate w c req = inr (d :: rest) ->
     requests_get w (datum_url d) = inr resp ->
     ~ (400 <= status_code resp < 600)%Z ->
     snd (run (generate_mandala_image w k word)) =
       match image_open w (content resp) with
       | inl _ => inr (None, None)
       | inr image => inr (Some image, Some (generate_mandala_prompt word))
       end).
Proof.
  intros Hc c req. subst c req. split; [|split].
  - unfold_pipeline. rewrite Hc. crunch; reflexivity.
  - intros d rest resp Hg Hr Hs. destruct (http_error_msg_some resp Hs) as [m Hm].
    unfold run, generate_mandala_image, create_openai_client, try_except, bind,
      ret, raise, emit, lift, index0, raise_for_status.
    rewrite Hc. simpl. rewrite Hg. simpl. rewrite Hr. simpl. rewrite Hm.
    reflexivity.
  - intros d rest resp Hg Hr Hs. pose proof (http_error_msg_none resp Hs) as Hm.
    unfold run, generate_mandala_image, create_openai_client, try_except, bind,
      ret, raise, emit, lift, index0, raise_for_status.
    rewrite Hc. simpl. rewrite Hg. simpl. rewrite Hr. simpl. rewrite Hm. simpl.
    destruct (image_open w (content resp)); reflexivity.
Qed.

Lemma pipeline_network_calls_witness :
  openai_ctor world_ok "valid-token" = None /\
  network_calls (fst (run (generate_mandala_image world_ok "valid-token" "peace"))) =
    [Ev_generate {| client_api_key := "valid-token" |}
       (mandala_request (generate_mandala_prompt "peace"));
     Ev_get (Some asset_url)].
Proof.
  split; [reflexivity|].
  exact (proj1 (pipeline_network_calls world_ok "valid-token" "peace" eq_refl)).
Defined.

(** C8, counterexample: when the provider's error text quotes the key, the
    script shows it to the user verbatim. *)
Lemma error_message_echoes_key :
  let '(tr, _, _) := main_run world_auth_fail empty_session "sk-test" "peace" true t0 in
  In (Ev_error (err_generating_prefix
                ++ "Error code: 401 - Incorrect API key provided: sk-test.")) tr /\
  contains (err_generating_prefix
            ++ "Error code: 401 - Incorrect API key provided: sk-test.") "sk-test".
Proof.
  vm_compute. split.
  - right. right. left. reflexivity.
  - exists (err_generating_prefix ++ "Error code: 401 - Incorrect API key provided: "), ".".
    reflexivity.
Qed.

(** C8, amended: the key never reaches the session state: two submits with
    the same word whose keys are both accepted or both refused by the gate,
    and whose pipelines return the same value, leave the same session and
    make the same rerun decision.  Every [st.error] message of the pipeline is
    the handler's prefix followed by [str(e)] of the exception raised there,
    verbatim; so whenever that exception's text contains the key, a shown
    error message contains the key. *)
Theorem credential_confined (w1 w2 : World) (s : Session) (k1 k2 word : string)
    (clicked : bool) :
  can_generate k1 word = can_generate k2 word ->
  snd (run (generate_mandala_image w1 k1 (strip word)))
    = snd (run (generate_mandala_image w2 k2 (strip word))) ->
  snd (fst (submit w1 s k1 word clicked)) = snd (fst (submit w2 s k2 word clicked)) /\
  snd (submit w1 s k1 word clicked) = snd (submit w2 s k2 word clicked) /\
  (forall m, In (Ev_error m) (fst (run (generate_mandala_image w1 k1 word))) ->
     exists prefix e, Raised w1 k1 word prefix e /\ m = prefix ++ exn_msg e) /\
  (forall prefix e, Raised w1 k1 word prefix e -> contains (exn_msg e) k1 ->
     exists m, In (Ev_error m) (fst (run (generate_mandala_image w1 k1 word))) /\
       contains m k1).
Proof.
  intros Hcan Hsame. split; [|split].
  1, 2:
    unfold submit, st_button, button_disabled; rewrite Hcan;
    destruct (can_generate k2 word), clicked; simpl; try reflexivity;
    destruct (run (generate_mandala_image w1 k1 (strip word))) as [tr1 r1];
    destruct (run (generate_mandala_image w2 k2 (strip word))) as [tr2 r2];
    simpl in Hsame; subst r2;
    destruct r1 as [e|[[image|] p]]; reflexivity.
  - split.
    + intros m Hm. apply in_errors_of in Hm.
      destruct (generate_result_shape w1 k1 word) as [Hf | [image Hs]].
      * destruct (failure_raised w1 k1 word Hf) as (prefix & e & R).
        exists prefix, e. split; [exact R|].
        rewrite (proj2 (raised_reported w1 k1 word prefix e R)) in Hm.
        destruct Hm as [Hm|[]]. symmetry. exact Hm.
      * rewrite (success_no_errors w1 k1 word image _ Hs) in Hm. destruct Hm.
    + intros prefix e R Hk. exists (prefix ++ exn_msg e). split.
      * apply in_errors_of. rewrite (proj2 (raised_reported w1 k1 word prefix e R)).
        left. reflexivity.
      * apply contains_app_r. exact Hk.
Qed.

Lemma credential_confined_witness :
  can_generate "valid-token" "peace" = can_generate "other-token" "peace" /\
  snd (run (generate_mandala_image world_ok "valid-token" (strip "peace")))
    = snd (run (generate_mandala_image world_ok "other-token" (strip "peace"))) /\
  snd (fst (submit world_ok empty_session "valid-token" "peace" true))
    = snd (fst (submit world_ok empty_session "other-token" "peace" true)).
Proof.
  split; [reflexivity|]. split; [reflexivity|].
  exact (proj1 (credential_confined world_ok world_ok empty_session "valid-token"
                  "other-token" "peace" true eq_refl eq_refl)).
Defined.

(** * Further properties of the script *)

(** ** [str.strip] *)

Lemma str_rev_involutive (s : string) : str_rev (str_rev s) = s.
Proof.
  induction s as [|c s IH]; simpl; [reflexivity|].
  rewrite str_rev_app, IH. reflexivity.
Qed.

Lemma str_rev_length (s : string) : String.length (str_rev s) = String.length s.
Proof.
  induction s as [|c s IH]; simpl; [reflexivity|].
  rewrite str_length_app, IH. simpl. lia.
Qed.

Lemma lstrip_suffix (s : string) : exists p, s = p ++ lstrip s.
Proof.
  induction s as [|c s [p IH]]; simpl; [exists ""; reflexivity|].
  destruct (is_py_space c).
  - exists (String c p). simpl. rewrite <- IH. reflexivity.
  - exists "". reflexivity.
Qed.

Lemma lstrip_length (s : string) : String.length (lstrip s) <= String.length s.
Proof.
  destruct (lstrip_suffix s) as [p Hp].
  rewrite Hp at 2. rewrite str_length_app. lia.
Qed.

Lemma lstrip_head (s r : string) (c : ascii) :
  lstrip s = String c r -> is_py_space c = false.
Proof.
  induction s as [|c' s IH]; simpl; [discriminate|].
  destruct (is_py_space c') eqn:E; [exact IH|].
  intro H. injection H as <- _. exact E.
Qed.

Lemma lstrip_nonspace_head (c : ascii) (r : string) :
  is_py_space c = false -> lstrip (String c r) = String c r.
Proof. intro H. simpl. rewrite H. reflexivity. Qed.

(** [str.strip] is idempotent. *)
Lemma strip_idem (s : string) : strip (strip s) = strip s.
Proof.
  unfold strip, rstrip.
  set (u := lstrip s).
  set (v := str_rev (lstrip (str_rev u))).
  assert (Hv : lstrip v = v).
  { destruct (lstrip_suffix (str_rev u)) as [p Hp].
    assert (Hu : u = v ++ str_rev p).
    { unfold v. rewrite <- str_rev_app, <- Hp, str_rev_involutive. reflexivity. }
    destruct v as [|c r] eqn:Ev; [reflexivity|].
    apply lstrip_nonspace_head.
    apply (lstrip_head u (r ++ str_rev p)).
    unfold u at 1. rewrite lstrip_idem. fold u. rewrite Hu. reflexivity. }
  rewrite Hv. unfold v. rewrite str_rev_involutive, lstrip_idem. reflexivity.
Qed.

Lemma strip_length (s : string) : String.length (strip s) <= String.length s.
Proof.
  unfold strip, rstrip. rewrite str_rev_length.
  pose proof (lstrip_length (str_rev (lstrip s))) as H1.
  rewrite str_rev_length in H1. pose proof (lstrip_length s). lia.
Qed.

(** ** The session state across runs *)

Lemma submit_session_cases (w : World) (s : Session) (k word : string) (c : bool) :
  snd (fst (submit w s k word c)) = s \/
  exists image, can_generate k word = true /\
    snd (fst (submit w s k word c)) =
      {| current_image := Some image;
         current_prompt := Some (generate_mandala_prompt (strip word));
         current_word := Some (strip word) |}.
Proof.
  unfold submit, st_button, button_disabled.
  destruct (can_generate k word) eqn:Hcan, c; simpl; try (left; reflexivity).
  destruct (generate_result_shape w k (strip word)) as [H | [image H]];
  destruct (run (generate_mandala_image w k (strip word))) as [tr r];
  simpl in H; subst r; simpl; [left; reflexivity|].
  right. exists image. split; reflexivity.
Qed.

Lemma main_run_session (w : World) (s : Session) (k t : string) (c : bool) (now : DateTime) :
  snd (fst (main_run w s k t c now))
  = snd (fst (submit w s (text_input_value None k) (text_input_value (Some 50) t) c)).
Proof.
  unfold main_run.
  destruct (submit w s (text_input_value None k) (text_input_value (Some 50) t) c)
    as [[tr s'] [|]]; reflexivity.
Qed.

Lemma main_run_session_ok (w : World) (s : Session) (k t : string) (c : bool)
    (now : DateTime) :
  session_ok s -> session_ok (snd (fst (main_run w s k t c now))).
Proof.
  intro Hs. rewrite main_run_session.
  destruct (submit_session_cases w s (text_input_value None k)
              (text_input_value (Some 50) t) c) as [-> | [image [Hcan ->]]];
    [exact Hs|].
  right. exists image, (strip (text_input_value (Some 50) t)).
  split; [reflexivity|]. split; [apply strip_idem|]. split.
  - unfold can_generate in Hcan. apply andb_true_iff in Hcan as [_ Hw].
    intro E. rewrite E in Hw. discriminate.
  - pose proof (strip_length (text_input_value (Some 50) t)).
    pose proof (substring_length 50 t). simpl text_input_value in *. lia.
Qed.

Lemma session_after_ok (s : Session) (runs : list RunInput) :
  session_ok s -> session_ok (session_after s runs).
Proof.
  revert s. induction runs as [|r runs IH]; intros s Hs; simpl; [exact Hs|].
  pose proof (main_run_session_ok (ri_world r) s (ri_key r) (ri_word r)
                (ri_clicked r) (ri_now r) Hs) as H.
  destruct (main_run (ri_world r) s (ri_key r) (ri_word r) (ri_clicked r) (ri_now r))
    as [[tr s'] o].
  apply IH. exact H.
Qed.

(** Every session state reachable from a fresh session by any sequence of
    runs is empty, or holds an image together with the prompt built from the
    stored word, that word being stripped, non-empty and at most 50
    characters long. *)
Theorem reachable_session_ok (runs : list RunInput) :
  session_ok (session_after empty_session runs).
Proof. apply session_after_ok. left. reflexivity. Qed.

(** For every reachable session the result panel is the placeholder exactly
    when nothing is stored; it never fails on a missing [current_word]; the
    only failures left are [st.image] displaying the stored image and, after
    it, the PNG save of that image; and a shown result has the caption of the
    stored word and shows the prompt built from that same word. *)
Theorem reachable_render_consistent (runs : list RunInput) (w : World) (now : DateTime) :
  let s := session_after empty_session runs in
  match render w s now with
  | Panel_placeholder => s = empty_session
  | Panel_crash e =>
      exists image, current_image s = Some image /\
        (st_image w image = Some e \/ (st_image w image = None /\ png_save w image = inl e))
  | Panel_result image caption _ _ shown =>
      exists word, current_image s = Some image /\ current_word s = Some word /\
        caption = "Mandala inspired by: " ++ word /\
        shown = Some (generate_mandala_prompt word)
  end.
Proof.
  intro s.
  destruct (session_after_ok empty_session runs (or_introl eq_refl))
    as [Hs | (image & word & Hs & _)]; fold s in Hs; rewrite Hs; [reflexivity|].
  unfold render, get_image_download_link; simpl.
  destruct (st_image w image) eqn:D;
    [exists image; split; [reflexivity | left; exact D]|].
  destruct (png_save w image) eqn:E;
    [exists image; split; [reflexivity | right; split; [exact D | exact E]]|].
  exists word. repeat split.
Qed.

(** ** What a run of [main] shows and sends *)

Lemma generate_no_info (w : World) (k word m : string) :
  ~ In (Ev_info m) (fst (run (generate_mandala_image w k word))).
Proof. unfold_pipeline; crunch; simpl; intuition discriminate. Qed.

Lemma generate_request_sent (w : World) (k word : string) (c : Client) (r : GenRequest) :
  In (Ev_generate c r) (fst (run (generate_mandala_image w k word))) ->
  c = {| client_api_key := k |} /\ r = mandala_request (generate_mandala_prompt word).
Proof.
  unfold_pipeline; crunch; intro H; simpl in H;
    repeat (destruct H as [H|H]; [try discriminate H|]); try contradiction;
    injection H as <- <-; split; reflexivity.
Qed.

(** The trace of [submit] is empty or the pipeline's trace, possibly
    followed by the success message. *)
Lemma submit_trace (w : World) (s : Session) (k word : string) (c : bool) :
  fst (fst (submit w s k word c)) = [] \/
  fst (fst (submit w s k word c)) = fst (run (generate_mandala_image w k (strip word))) \/
  fst (fst (submit w s k word c)) =
    (fst (run (generate_mandala_image w k (strip word))) ++ [Ev_success (success_msg word)])%list.
Proof.
  unfold submit, st_button, button_disabled.
  destruct (can_generate k word), c; simpl; try (left; reflexivity).
  destruct (run (generate_mandala_image w k (strip word))) as [tr [e|[[image|] p]]];
    simpl; auto.
Qed.

Lemma main_run_unclicked (w : World) (s : Session) (k t : string) (now : DateTime) :
  snd (fst (main_run w s k t false now)) = s /\
  snd (main_run w s k t false now) = Rendered (render w s now) /\
  network_calls (fst (fst (main_run w s k t false now))) = [].
Proof.
  unfold main_run, submit, st_button. simpl.
  destruct (can_generate k (substring 0 50 t)); simpl; repeat split.
Qed.

(** The hint "Please enter both your API key and inspiration word" is shown
    exactly when the stripped key or the stripped word is empty, i.e. exactly
    when the Generate button is disabled. *)
Theorem info_shown_iff_disabled (w : World) (s : Session) (k t : string) (c : bool)
    (now : DateTime) :
  In (Ev_info info_missing) (fst (fst (main_run w s k t c now))) <->
  button_disabled (text_input_value None k) (text_input_value (Some 50) t) = true.
Proof.
  unfold button_disabled.
  pose proof (submit_trace w s (text_input_value None k) (text_input_value (Some 50) t) c)
    as Htr.
  unfold main_run. simpl text_input_value in *.
  destruct (can_generate k (substring 0 50 t)) eqn:Hcan;
    simpl.
  - destruct (submit w s k (substring 0 50 t) c) as [[tr s'] b]; simpl in Htr.
    assert (Hno : ~ In (Ev_info info_missing) tr).
    { destruct Htr as [-> | [-> | ->]]; [intros []| apply generate_no_info |].
      rewrite in_app_iff. intros [H|[H|[]]]; [exact (generate_no_info _ _ _ _ H)|discriminate]. }
    destruct b; simpl; split; intro H; try discriminate; contradiction.
  - unfold submit, st_button, button_disabled. rewrite Hcan. simpl.
    rewrite andb_false_r. simpl. split; [reflexivity | intros _; left; reflexivity].
Qed.

(** The key goes to the OpenAI client exactly as typed, leading and trailing
    whitespace included (only the gate strips it), while the prompt is built
    from the stripped word of at most 50 characters. *)
Theorem key_sent_as_typed (w : World) (s : Session) (k t : string) (c : bool)
    (now : DateTime) (cl : Client) (r : GenRequest) :
  In (Ev_generate cl r) (fst (fst (main_run w s k t c now))) ->
  cl = {| client_api_key := k |} /\
  r = mandala_request (generate_mandala_prompt (strip (text_input_value (Some 50) t))).
Proof.
  pose proof (submit_trace w s (text_input_value None k) (text_input_value (Some 50) t) c)
    as Htr.
  unfold main_run. simpl text_input_value in *.
  destruct (submit w s k (substring 0 50 t) c) as [[tr s'] b]; simpl in Htr.
  intro H.
  assert (Htr' : In (Ev_generate cl r) tr).
  { destruct b; [exact H|].
    destruct (can_generate k (substring 0 50 t)); [exact H|]. apply in_app_iff in H as [H|[H|[]]]; [exact H|discriminate]. }
  destruct Htr as [-> | [-> | ->]]; [destruct Htr'| |].
  - exact (generate_request_sent _ _ _ _ _ Htr').
  - apply in_app_iff in Htr' as [H'|[H'|[]]]; [|discriminate].
    exact (generate_request_sent _ _ _ _ _ H').
Qed.

Lemma key_sent_as_typed_witness :
  In (Ev_generate {| client_api_key := " valid-token " |}
        (mandala_request (generate_mandala_prompt "peace")))
     (fst (fst (main_run world_ok empty_session " valid-token " " peace" true t0))) /\
  {| client_api_key := " valid-token " |} = {| client_api_key := " valid-token " |} /\
  mandala_request (generate_mandala_prompt "peace")
    = mandala_request (generate_mandala_prompt (strip (text_input_value (Some 50) " peace"))).
Proof.
  assert (H : In (Ev_generate {| client_api_key := " valid-token " |}
                  (mandala_request (generate_mandala_prompt "peace")))
              (fst (fst (main_run world_ok empty_session " valid-token " " peace" true t0))))
    by (vm_compute; right; left; reflexivity).
  split; [exact H|]. exact (key_sent_as_typed _ _ _ _ _ _ _ _ H).
Defined.

(** A click whose pipeline returns an image ends the run with [st.rerun()];
    the next run, if nothing is clicked and [st.image] displays the image and
    PNG saving it succeeds, shows that image captioned with the stripped
    word, offers it as [mandala_{word}_{stamp}.png] stamped with that later
    run's clock, and shows the prompt built from the word. *)
Theorem success_then_rerun_shows_result (w : World) (s : Session) (k t : string)
    (now : DateTime) (image : Image) (p : option string) :
  let word := strip (text_input_value (Some 50) t) in
  can_generate k (text_input_value (Some 50) t) = true ->
  snd (run (generate_mandala_image w k word)) = inr (Some image, p) ->
  snd (main_run w s k t true now) = Rerun /\
  forall w2 k2 t2 now2 bytes,
    st_image w2 image = None -> png_save w2 image = inr bytes ->
    snd (main_run w2 (snd (fst (main_run w s k t true now))) k2 t2 false now2) =
    Rendered (Panel_result image ("Mandala inspired by: " ++ word)
                ("mandala_" ++ word ++ "_" ++ strftime_stamp now2 ++ ".png") bytes
                (Some (generate_mandala_prompt word))).
Proof.
  intros word Hcan Hok.
  destruct (generate_result_shape w k word) as [H | [image' H]];
    rewrite Hok in H; [discriminate|].
  injection H as <- ->.
  assert (Hrun : main_run w s k t true now =
    ((fst (run (generate_mandala_image w k word)) ++ [Ev_success (success_msg (text_input_value (Some 50) t))])%list,
     {| current_image := Some image;
        current_prompt := Some (generate_mandala_prompt word);
        current_word := Some word |}, Rerun)).
  { unfold main_run, submit, st_button, button_disabled. simpl text_input_value in *.
    rewrite Hcan. simpl. fold word.
    destruct (run (generate_mandala_image w k word)) as [tr r].
    simpl in Hok. subst r. reflexivity. }
  rewrite Hrun. split; [reflexivity|].
  intros w2 k2 t2 now2 bytes Hshow Hsave.
  rewrite (proj1 (proj2 (main_run_unclicked w2 _ k2 t2 now2))).
  unfold render, get_image_download_link. simpl. rewrite Hshow, Hsave. reflexivity.
Qed.

Lemma success_then_rerun_shows_result_witness :
  can_generate "valid-token" (text_input_value (Some 50) " peace") = true /\
  snd (run (generate_mandala_image world_ok "valid-token" (strip (text_input_value (Some 50) " peace"))))
    = inr (Some img0, Some (generate_mandala_prompt "peace")) /\
  snd (main_run world_ok empty_session "valid-token" " peace" true t0) = Rerun.
Proof.
  split; [reflexivity|]. split; [reflexivity|].
  exact (proj1 (success_then_rerun_shows_result world_ok empty_session "valid-token" " peace"
                  t0 img0 (Some (generate_mandala_prompt "peace")) eq_refl eq_refl)).
Defined.
Example b64_ex : b64encode [Byte.x4d; Byte.x61; Byte.x6e] = "TWFu"
  /\ b64encode [Byte.x4d; Byte.x61] = "TWE=" /\ b64encode [Byte.x4d] = "TQ==".
Proof. repeat split. Qed.

Example b64_dec_ex : b64decode "TWFuTQ==" = Some [77; 97; 110; 77]%Z.
Proof. reflexivity. Qed.

Example href_ex :
  href_payload (link_html (b64encode png_bytes) "a.png") = Some (b64encode png_bytes).
Proof. reflexivity. Qed.

(** ** Base64 and the download link *)

Lemma b64_char_ok (v : Z) :
  (0 <= v < 64)%Z ->
  b64_val (b64_char v) = Some v /\ Ascii.eqb (b64_char v) "=" = false /\
  Ascii.eqb (b64_char v) dq_char = false.
Proof.
  intro Hv.
  assert (Hi : (Z.to_nat v < 64)%nat) by lia.
  replace v with (Z.of_nat (Z.to_nat v)) by lia.
  generalize (Z.to_nat v) Hi. clear v Hv Hi. intros i Hi.
  do 64 (destruct i as [|i]; [vm_compute; repeat split|]). lia.
Qed.

Lemma byte_val_bound (b : Byte.byte) : (0 <= byte_val b < 256)%Z.
Proof. unfold byte_val. pose proof (Byte.to_N_bounded b). lia. Qed.

Lemma sextet_bounds (n : Z) :
  (0 <= n < 16777216)%Z ->
  (0 <= n / 262144 < 64)%Z /\ (0 <= n / 4096 mod 64 < 64)%Z /\
  (0 <= n / 64 mod 64 < 64)%Z /\ (0 <= n mod 64 < 64)%Z.
Proof. intro H. Z.div_mod_to_equations. lia. Qed.

Lemma group3_arith (x1 x2 x3 : Z) :
  (0 <= x1 < 256)%Z -> (0 <= x2 < 256)%Z -> (0 <= x3 < 256)%Z ->
  let n := (x1 * 65536 + x2 * 256 + x3)%Z in
  let m := (n / 262144 * 262144 + n / 4096 mod 64 * 4096 + n / 64 mod 64 * 64
            + n mod 64)%Z in
  (m / 65536 = x1 /\ m / 256 mod 256 = x2 /\ m mod 256 = x3)%Z.
Proof.
  intros H1 H2 H3 n m.
  assert (Hm : m = n) by (subst m n; Z.div_mod_to_equations; lia).
  rewrite Hm. subst n. repeat split; Z.div_mod_to_equations; lia.
Qed.

Lemma group2_arith (x1 x2 : Z) :
  (0 <= x1 < 256)%Z -> (0 <= x2 < 256)%Z ->
  let n := (x1 * 65536 + x2 * 256)%Z in
  let m := (n / 262144 * 262144 + n / 4096 mod 64 * 4096 + n / 64 mod 64 * 64)%Z in
  (m / 65536 = x1 /\ m / 256 mod 256 = x2)%Z.
Proof.
  intros H1 H2 n m.
  assert (Hm : m = n) by (subst m n; Z.div_mod_to_equations; lia).
  rewrite Hm. subst n. split; Z.div_mod_to_equations; lia.
Qed.

Lemma group1_arith (x1 : Z) :
  (0 <= x1 < 256)%Z ->
  let n := (x1 * 65536)%Z in
  ((n / 262144 * 262144 + n / 4096 mod 64 * 4096) / 65536 = x1)%Z.
Proof. intros H1 n. subst n. Z.div_mod_to_equations. lia. Qed.

Fixpoint no_dq (s : string) : bool :=
  match s with
  | EmptyString => true
  | String c r => negb (Ascii.eqb c dq_char) && no_dq r
  end.

Lemma b64encode_roundtrip_and_no_dq (bs : list Byte.byte) :
  b64decode (b64encode bs) = Some (map byte_val bs) /\ no_dq (b64encode bs) = true.
Proof.
  revert bs. fix IH 1. intros [|b1 [|b2 [|b3 rest]]].
  - split; reflexivity.
  - pose proof (byte_val_bound b1) as H1.
    pose proof (group1_arith _ H1) as A. cbv zeta in A.
    destruct (sextet_bounds (byte_val b1 * 65536)) as (S1 & S2 & _ & _); [lia|].
    destruct (b64_char_ok _ S1) as (V1 & _ & Q1).
    destruct (b64_char_ok _ S2) as (V2 & _ & Q2).
    cbn [b64encode b64decode no_dq]. rewrite V1, V2, Q1, Q2. cbn.
    rewrite A. split; reflexivity.
  - pose proof (byte_val_bound b1) as H1. pose proof (byte_val_bound b2) as H2.
    pose proof (group2_arith _ _ H1 H2) as [A1 A2]. cbv zeta in A1, A2.
    destruct (sextet_bounds (byte_val b1 * 65536 + byte_val b2 * 256))
      as (S1 & S2 & S3 & _); [lia|].
    destruct (b64_char_ok _ S1) as (V1 & _ & Q1).
    destruct (b64_char_ok _ S2) as (V2 & _ & Q2).
    destruct (b64_char_ok _ S3) as (V3 & E3 & Q3).
    cbn [b64encode b64decode no_dq]. rewrite V1, V2, V3, E3, Q1, Q2, Q3. cbn.
    rewrite A1, A2. split; reflexivity.
  - pose proof (byte_val_bound b1) as H1. pose proof (byte_val_bound b2) as H2.
    pose proof (byte_val_bound b3) as H3.
    pose proof (group3_arith _ _ _ H1 H2 H3) as (A1 & A2 & A3). cbv zeta in A1, A2, A3.
    destruct (sextet_bounds (byte_val b1 * 65536 + byte_val b2 * 256 + byte_val b3))
      as (S1 & S2 & S3 & S4); [lia|].
    destruct (b64_char_ok _ S1) as (V1 & _ & Q1).
    destruct (b64_char_ok _ S2) as (V2 & _ & Q2).
    destruct (b64_char_ok _ S3) as (V3 & _ & Q3).
    destruct (b64_char_ok _ S4) as (V4 & E4 & Q4).
    destruct (IH rest) as [R N].
    cbn [b64encode b64decode no_dq]. rewrite V1, V2, V3, V4, E4, Q1, Q2, Q3, Q4, R, N.
    cbn. rewrite A1, A2, A3. split; reflexivity.
Qed.

Lemma prefix_app_self (a b : string) : String.prefix a (a ++ b) = true.
Proof.
  induction a as [|c a IH]; simpl; [destruct b; reflexivity|].
  destruct (ascii_dec c c) as [_|n]; [exact IH | contradiction].
Qed.

Lemma substring_all (m : nat) (s : string) : String.length s <= m -> substring 0 m s = s.
Proof.
  revert m. induction s as [|c s IH]; intros m Hm; destruct m; simpl in *;
    try reflexivity; try lia.
  rewrite IH; [reflexivity|lia].
Qed.

Lemma substring_after (a b : string) (m : nat) :
  substring (String.length a) m (a ++ b) = substring 0 m b.
Proof. induction a as [|c a IH]; simpl; [reflexivity|exact IH]. Qed.

Lemma take_until_dq_app (p r : string) :
  no_dq p = true -> take_until_dq (p ++ String dq_char r) = p.
Proof.
  induction p as [|c p IH]; simpl; [reflexivity|].
  intro H. apply andb_true_iff in H as [Hc Hp].
  apply negb_true_iff in Hc. rewrite Hc, IH by exact Hp. reflexivity.
Qed.

Lemma href_payload_link (p f : string) :
  no_dq p = true -> href_payload (link_html p f) = Some p.
Proof.
  intro Hp. unfold href_payload, link_html.
  rewrite prefix_app_self, substring_after, substring_all.
  - unfold dq at 1. simpl append. rewrite take_until_dq_app by exact Hp. reflexivity.
  - rewrite !str_length_app. lia.
Qed.

(** The [href] of the download link, read up to its closing quote, is a
    [data:image/png;base64,] URL whose payload decodes to exactly the bytes
    [image.save(format="PNG")] produced: the base64 text never contains a
    quote that would end the attribute early. *)
Theorem download_link_carries_png (w : World) (image : Image) (filename : string)
    (bytes : list Byte.byte) :
  png_save w image = inr bytes ->
  exists html payload,
    download_link_html w image filename = inr html /\
    href_payload html = Some payload /\
    b64decode payload = Some (map byte_val bytes).
Proof.
  intro Hs. destruct (b64encode_roundtrip_and_no_dq bytes) as [R N].
  exists (link_html (b64encode bytes) filename), (b64encode bytes).
  unfold download_link_html, get_image_download_link. rewrite Hs.
  split; [reflexivity|]. split; [apply href_payload_link; exact N | exact R].
Qed.

Lemma download_link_carries_png_witness :
  png_save world_ok img0 = inr png_bytes /\
  exists html payload,
    download_link_html world_ok img0 "mandala_peace_20261014_090507.png" = inr html /\
    href_payload html = Some payload /\
    b64decode payload = Some (map byte_val png_bytes).
Proof.
  split; [reflexivity|]. apply download_link_carries_png. reflexivity.
Defined.

(** ** Edge cases of the pipeline *)

(** If the provider answers with an empty [data] list, [response.data[0]]
    raises [IndexError]: the pipeline returns [(None, None)], shows the one
    message "Error generating image: list index out of range", and never
    fetches anything. *)
Theorem empty_data_is_reported (w : World) (k word : string) :
  openai_ctor w k = None ->
  images_generate w {| client_api_key := k |} (mandala_request (generate_mandala_prompt word))
    = inr [] ->
  snd (run (generate_mandala_image w k word)) = inr (None, None) /\
  errors_of (fst (run (generate_mandala_image w k word)))
    = [err_generating_prefix ++ "list index out of range"] /\
  (forall u, ~ In (Ev_get u) (fst (run (generate_mandala_image w k word)))).
Proof.
  intros Hc Hg. unfold_pipeline. rewrite Hc. simpl. rewrite Hg. simpl.
  repeat split. intros u H. simpl in H. intuition discriminate.
Qed.

Lemma empty_data_is_reported_witness :
  openai_ctor (with_generate world_ok (fun _ _ => inr [])) "valid-token" = None /\
  images_generate (with_generate world_ok (fun _ _ => inr [])) {| client_api_key := "valid-token" |}
    (mandala_request (generate_mandala_prompt "peace")) = inr [] /\
  snd (run (generate_mandala_image (with_generate world_ok (fun _ _ => inr [])) "valid-token" "peace"))
    = inr (None, None).
Proof.
  split; [reflexivity|]. split; [reflexivity|].
  exact (proj1 (empty_data_is_reported (with_generate world_ok (fun _ _ => inr []))
                  "valid-token" "peace" eq_refl eq_refl)).
Defined.

(** If building the client raises, the pipeline shows only the message
    "Error with API key: " followed by the exception text (the outer
    handler never runs), makes no network call, and returns [(None, None)]. *)
Theorem client_failure_is_reported (w : World) (k word : string) (e : Exn) :
  openai_ctor w k = Some e ->
  snd (run (generate_mandala_image w k word)) = inr (None, None) /\
  errors_of (fst (run (generate_mandala_image w k word))) = [err_api_key_prefix ++ exn_msg e] /\
  network_calls (fst (run (generate_mandala_image w k word))) = [].
Proof.
  intro Hc. unfold_pipeline. rewrite Hc. simpl. repeat split.
Qed.

Lemma client_failure_is_reported_witness :
  let w := {| openai_ctor := fun _ => Some {| exn_msg := "The api_key client option must be set" |};
              images_generate := images_generate world_ok; requests_get := requests_get world_ok;
              image_open := image_open world_ok; png_save := png_save world_ok;
              st_image := st_image world_ok |} in
  openai_ctor w "valid-token" = Some {| exn_msg := "The api_key client option must be set" |} /\
  snd (run (generate_mandala_image w "valid-token" "peace")) = inr (None, None).
Proof.
  intro w. split; [reflexivity|].
  exact (proj1 (client_failure_is_reported w "valid-token" "peace" _ eq_refl)).
Defined.

(** ** The time stamp of the download name *)

Definition dig (n : nat) : ascii := ascii_of_nat (48 + n mod 10).

Lemma dec_fuel_big (f n : nat) (acc : string) :
  10 <= n -> dec_fuel (S f) n acc = dec_fuel f (n / 10) (String (dig n) acc).
Proof.
  intro H. simpl. destruct (n <? 10)%nat eqn:E; [apply Nat.ltb_lt in E; lia|].
  reflexivity.
Qed.

Lemma dec_fuel_small (f n : nat) (acc : string) :
  n < 10 -> dec_fuel (S f) n acc = String (dig n) acc.
Proof.
  intro H. simpl. destruct (n <? 10)%nat eqn:E; [reflexivity|].
  apply Nat.ltb_ge in E. lia.
Qed.

Ltac div10 n :=
  pose proof (Nat.div_mod_eq n 10); pose proof (Nat.mod_upper_bound n 10 ltac:(lia)).

Lemma pad2_shape (n : nat) : n < 100 -> pad2 n = String (dig (n / 10)) (String (dig n) "").
Proof.
  intro H. unfold pad2, dec. destruct (n <? 10)%nat eqn:E.
  - apply Nat.ltb_lt in E. rewrite dec_fuel_small by exact E.
    rewrite Nat.div_small by exact E. reflexivity.
  - apply Nat.ltb_ge in E. rewrite dec_fuel_big by exact E.
    div10 n. destruct n as [|m]; [lia|].
    rewrite dec_fuel_small by lia. reflexivity.
Qed.

Lemma year_shape (y : nat) :
  1000 <= y -> y / 1000 < 10 ->
  dec y = String (dig (y / 10 / 10 / 10)) (String (dig (y / 10 / 10))
            (String (dig (y / 10)) (String (dig y) ""))).
Proof.
  intros H1 H2.
  assert (H3 : y / 10 / 10 / 10 < 10) by (rewrite !Nat.Div0.div_div; exact H2).
  div10 y. div10 (y / 10). div10 (y / 10 / 10).
  unfold dec. rewrite dec_fuel_big by lia.
  destruct y as [|y]; [lia|]. rewrite dec_fuel_big by lia.
  destruct y as [|y]; [lia|]. rewrite dec_fuel_big by lia.
  destruct y as [|y]; [lia|]. rewrite dec_fuel_small by lia.
  reflexivity.
Qed.

Lemma dig_inj (a b : nat) : dig a = dig b -> a mod 10 = b mod 10.
Proof.
  unfold dig. intro H. apply (f_equal nat_of_ascii) in H.
  pose proof (Nat.mod_upper_bound a 10 ltac:(lia)).
  pose proof (Nat.mod_upper_bound b 10 ltac:(lia)).
  rewrite !nat_ascii_embedding in H by lia. lia.
Qed.

Lemma stamp_length (t : DateTime) :
  valid_datetime t -> String.length (strftime_stamp t) = 15.
Proof.
  intros (H1 & H2 & H3 & H4 & H5 & H6 & H7). unfold strftime_stamp.
  rewrite year_shape by assumption.
  rewrite !pad2_shape by lia. reflexivity.
Qed.

Lemma stamp_injective (t t' : DateTime) :
  valid_datetime t -> valid_datetime t' ->
  strftime_stamp t = strftime_stamp t' -> same_second t t'.
Proof.
  intros (H1 & H2 & H3 & H4 & H5 & H6 & H7) (H1' & H2' & H3' & H4' & H5' & H6' & H7').
  unfold strftime_stamp. rewrite !year_shape by assumption.
  rewrite !pad2_shape by lia. cbn [append]. intro E.
  injection E as Ey3 Ey2 Ey1 Ey0 Emo1 Emo0 Ed1 Ed0 Eh1 Eh0 Emi1 Emi0 Es1 Es0.
  apply dig_inj in Ey3, Ey2, Ey1, Ey0, Emo1, Emo0, Ed1, Ed0, Eh1, Eh0, Emi1, Emi0,
    Es1, Es0.
  repeat match goal with
  | H : context [fst (Nat.divmod ?x 9 0 9)] |- _ =>
      change (fst (Nat.divmod x 9 0 9)) with (x / 10) in H
  end.
  assert (Y3 : dt_year t / 10 / 10 / 10 < 10) by (rewrite !Nat.Div0.div_div; exact H2).
  assert (Y3' : dt_year t' / 10 / 10 / 10 < 10) by (rewrite !Nat.Div0.div_div; exact H2').
  destruct t as [y mo d h mi sc us], t' as [y' mo' d' h' mi' sc' us'];
    cbn [dt_year dt_month dt_day dt_hour dt_minute dt_second] in *.
  div10 y. div10 (y / 10). div10 (y / 10 / 10). div10 (y / 10 / 10 / 10).
  div10 y'. div10 (y' / 10). div10 (y' / 10 / 10). div10 (y' / 10 / 10 / 10).
  div10 mo. div10 (mo / 10). div10 mo'. div10 (mo' / 10).
  div10 d. div10 (d / 10). div10 d'. div10 (d' / 10).
  div10 h. div10 (h / 10). div10 h'. div10 (h' / 10).
  div10 mi. div10 (mi / 10). div10 mi'. div10 (mi' / 10).
  div10 sc. div10 (sc / 10). div10 sc'. div10 (sc' / 10).
  unfold same_second; cbn [dt_year dt_month dt_day dt_hour dt_minute dt_second].
  repeat split; lia.
Qed.

Lemma str_app_inv_l (a x y : string) : a ++ x = a ++ y -> x = y.
Proof.
  induction a as [|c a IH]; simpl; [trivial|]. intro H. injection H as H. auto.
Qed.

Lemma str_app_inv_same_length (x y u v : string) :
  String.length x = String.length y -> x ++ u = y ++ v -> x = y.
Proof.
  revert y. induction x as [|c x IH]; intros [|c' y]; simpl; try discriminate; [trivial|].
  intros Hl H. injection H as -> H. f_equal. apply IH; [lia | exact H].
Qed.

(** With a four-digit year, the download names rendered for one session
    whose image [st.image] displays and PNG saving succeeds, at two clock
    readings, coincide exactly when the readings fall in the same second: the
    name is exact to the second and blind to the microseconds. *)
Theorem download_name_second_precision (w : World) (s : Session)
    (now now' : DateTime) (image : Image) (word : string) (bytes : list Byte.byte) :
  current_image s = Some image -> current_word s = Some word ->
  st_image w image = None -> png_save w image = inr bytes ->
  valid_datetime now -> valid_datetime now' ->
  (filename_of (render w s now) = filename_of (render w s now') <-> same_second now now').
Proof.
  intros Hi Hw Hd Hs Hv Hv'. unfold render, get_image_download_link.
  rewrite Hi, Hw, Hd, Hs. simpl filename_of. split.
  - intro E. injection E as E. apply stamp_injective; [exact Hv | exact Hv' |].
    apply str_app_inv_l in E. injection E as E.
    exact (str_app_inv_same_length _ _ _ _
             (eq_trans (stamp_length now Hv) (eq_sym (stamp_length now' Hv'))) E).
  - intros (Ey & Emo & Ed & Eh & Emi & Esc). unfold strftime_stamp.
    rewrite Ey, Emo, Ed, Eh, Emi, Esc. reflexivity.
Qed.

Lemma download_name_second_precision_witness :
  let later := {| dt_year := 2026; dt_month := 10; dt_day := 14;
                  dt_hour := 9; dt_minute := 5; dt_second := 7; dt_microsecond := 999 |} in
  valid_datetime t0 /\ valid_datetime later /\
  (filename_of (render world_ok s_prev t0) = filename_of (render world_ok s_prev later)
   <-> same_second t0 later).
Proof.
  intro later.
  assert (V0 : valid_datetime t0) by (unfold valid_datetime; simpl; lia).
  assert (V1 : valid_datetime later) by (unfold valid_datetime; simpl; lia).
  split; [exact V0 | split; [exact V1 |]].
  exact (download_name_second_precision world_ok s_prev t0 later img0 "peace" png_bytes
           eq_refl eq_refl eq_refl eq_refl V0 V1).
Defined.
